(** * Hospital guide screens: dispatch service and device utilities

    A shallow embedding of [backend/server.js] (the device registry, the
    guide-task queue and the two HTTP handlers) and of the scheduling and
    error-handling functions of [frontend/device-utils.js], followed by the
    properties of the coordination logic.

    Conventions.
    - A JavaScript value is a [jsval]; a number is a rational ([Q]): every
      finite binary64 value is one, and the handlers only test numbers for
      zero, compare them with [350] and match them against integer literals.
      [NaN] is the [None] of [ToNumber]; it never occurs as a parsed JSON
      number.
    - The registry is the [Map] of the source, a [gmap] keyed by strings.
    - A handler is a function from the server state and the destructured
      request fields to the response written and the next state. *)

From Stdlib Require Import ZArith QArith Qround Lia DecimalString.
From stdpp Require Import base strings pretty gmap list.

Open Scope Z_scope.

(** ** JavaScript values *)

(** The values a parsed JSON body or query string can hold.  An array or a
    plain object is kept as [JObject p], [p] being the string its
    [ToPrimitive] conversion yields (the only thing the handlers can observe
    of it besides its being truthy and never a key of the registry). *)
Inductive jsval : Type :=
  | JUndefined
  | JNull
  | JBool (b : bool)
  | JNum (n : Q)
  | JStr (s : string)
  | JObject (prim : string).

(** [ToBoolean]: the falsy values are [undefined], [null], [false], zero and
    the empty string. *)
Definition truthy (v : jsval) : bool :=
  match v with
  | JUndefined | JNull => false
  | JBool b => b
  | JNum n => negb (Qeq_bool n 0)
  | JStr s => negb (String.eqb s "")
  | JObject _ => true
  end.

(** [v === undefined]. *)
Definition is_undefined (v : jsval) : bool :=
  match v with
  | JUndefined => true
  | _ => false
  end.

(** [typeof v === "boolean"] and [typeof v === "number"], used to state
    what the handlers do NOT check. *)
Definition is_boolean (v : jsval) : bool :=
  match v with
  | JBool _ => true
  | _ => false
  end.

Definition is_number (v : jsval) : bool :=
  match v with
  | JNum _ => true
  | _ => false
  end.

(** [v === k] for a numeric literal [k] (the comparison of a [switch]). *)
Definition strict_eq_num (v : jsval) (k : Q) : bool :=
  match v with
  | JNum n => Qeq_bool n k
  | _ => false
  end.

(** [a > b] on numbers. *)
Definition Qgtb (a b : Q) : bool := negb (Qle_bool a b).

Section Runtime.

(** The runtime's [StringToNumber] ([None] for [NaN]).  It parses the
    numeric-literal grammar and rounds to binary64; the handlers are
    embedded for an arbitrary conversion. *)
Variable StringToNumber : string -> option Q.

(** [ToNumber]. *)
Definition ToNumber (v : jsval) : option Q :=
  match v with
  | JUndefined => None
  | JNull => Some 0%Q
  | JBool b => Some (if b then 1%Q else 0%Q)
  | JNum n => Some n
  | JStr s => StringToNumber s
  | JObject p => StringToNumber p
  end.

(** [v > k] for a numeric literal [k]: both sides go through [ToNumber],
    and a comparison with [NaN] is false. *)
Definition gt_num (v : jsval) (k : Q) : bool :=
  match ToNumber v with
  | Some n => Qgtb n k
  | None => false
  end.

End Runtime.

(** ** backend/server.js: state *)

(** A value of the registry: [{ isBusy, memory }], stored as reported. *)
Record device : Type := { isBusy : jsval; memory : jsval }.

(** An entry of the task queue: [{ content, picUrl }]. *)
Record guideTask : Type := { content : string; picUrl : string }.

(** The two module-level variables of the server. *)
Record server : Type := {
  deviceStatus : gmap string device;
  guideTaskQueue : list guideTask
}.

(** The template literal [`hospital-screen-${i}`]. *)
Definition screen_id (i : nat) : string := "hospital-screen-" +:+ pretty i.

(** The provisioning loop [for (let i = 0; i < 20; i++) deviceStatus.set(...)]. *)
Definition deviceStatus0 : gmap string device :=
  foldl (fun m i => <[screen_id i := {| isBusy := JBool false; memory := JNum 0 |}]> m)
        ∅ (seq 0 20).

Definition guideTaskQueue0 : list guideTask :=
  [ {| content := "您好，欢迎来到中国西苑苏州医院！内科和外科在1号楼2-3层，儿科在2号楼1层";
       picUrl := "https://your-server/department-map-1.png" |};
    {| content := "挂号可通过医院公众号预约，或在1号楼大厅自助机办理，支持医保支付";
       picUrl := "https://your-server/registration-guide.png" |};
    {| content := "取药处位于1号楼1层大厅东侧，凭处方单和缴费凭证即可领取药品";
       picUrl := "https://your-server/pharmacy-location.png" |} ].

Definition server0 : server :=
  {| deviceStatus := deviceStatus0; guideTaskQueue := guideTaskQueue0 |}.

(** *** The Map operations, on a key that is any value

    The registry is created with string keys and [set] is only ever called
    on a key that [has] found, so its keys stay strings; a value of another
    type is never a key of it. *)
Definition Map_get (m : gmap string device) (k : jsval) : option device :=
  match k with
  | JStr s => m !! s
  | _ => None
  end.

Definition Map_has (m : gmap string device) (k : jsval) : bool :=
  match Map_get m k with
  | Some _ => true
  | None => false
  end.

Definition Map_set (m : gmap string device) (k : jsval) (d : device)
  : gmap string device :=
  match k with
  | JStr s => <[s := d]> m
  | _ => m
  end.

(** ** backend/server.js: responses *)

(** The JSON object passed to [res.json]. *)
Record body : Type := {
  code : Z;
  msg : option string;
  task : option guideTask
}.

(** The response object: its HTTP status and the body sent, if any. *)
Record res : Type := { statusCode : Z; sent : option body }.

(** A fresh Express response has status 200. *)
Definition res0 : res := {| statusCode := 200; sent := None |}.

(** [res.status(n)]. *)
Definition status (n : Z) (r : res) : res :=
  {| statusCode := n; sent := sent r |}.

(** [res.json(b)]. *)
Definition json (b : body) (r : res) : res :=
  {| statusCode := statusCode r; sent := Some b |}.

(** The [code] field of the body sent ([0] when nothing was sent). *)
Definition sent_code (r : res) : Z :=
  match sent r with
  | Some b => code b
  | None => 0
  end.

Definition sent_msg (r : res) : option string :=
  match sent r with
  | Some b => msg b
  | None => None
  end.

Definition sent_task (r : res) : option guideTask :=
  match sent r with
  | Some b => task b
  | None => None
  end.

(** [{ code, msg }]. *)
Definition code_msg (c : Z) (m : string) : body :=
  {| code := c; msg := Some m; task := None |}.

(** ** POST /report-status *)

(** [!deviceId || isBusy === undefined || memory === undefined]. *)
Definition incomplete (deviceId isBusy memory : jsval) : bool :=
  negb (truthy deviceId) || is_undefined isBusy || is_undefined memory.

Definition report_status (s : server) (deviceId isBusy memory : jsval)
  : res * server :=
  if incomplete deviceId isBusy memory then
    (json (code_msg 400 "参数不全（需deviceId/isBusy/memory）") (status 400 res0), s)
  else if Map_has (deviceStatus s) deviceId then
    (json (code_msg 200 "状态更新成功") res0,
     {| deviceStatus :=
          Map_set (deviceStatus s) deviceId {| isBusy := isBusy; memory := memory |};
        guideTaskQueue := guideTaskQueue s |})
  else
    (json (code_msg 404 "设备ID不存在（需为hospital-screen-0至19）") (status 404 res0), s).

(** ** GET /get-task *)

(** [${deviceId}] in the busy message.  The message is built once the key
    was found in the registry, where only strings are found. *)
Definition key_text (deviceId : jsval) : string :=
  match deviceId with
  | JStr s => s
  | _ => ""
  end.

(** [device.isBusy ? '运行中' : '内存过高']. *)
Definition busy_reason (d : device) : string :=
  if truthy (isBusy d) then "运行中" else "内存过高".

(** [`设备${deviceId}忙（${...}）`]. *)
Definition busy_msg (deviceId : jsval) (d : device) : string :=
  "设备" +:+ key_text deviceId +:+ "忙（" +:+ busy_reason d +:+ "）".

Section Dispatch.

Variable StringToNumber : string -> option Q.

(** [device.isBusy || device.memory > 350]. *)
Definition refused (d : device) : bool :=
  truthy (isBusy d) || gt_num StringToNumber (memory d) 350.

(** The handler.  [deviceStatus.get] yields the record or [undefined], and
    a record is an object, hence truthy: [!device] is the absence of the
    key.  The test [guideTaskQueue.length > 0] followed by [shift()] is the
    match on the head of the queue. *)
Definition get_task (s : server) (deviceId : jsval) : res * server :=
  if negb (truthy deviceId) then
    (json (code_msg 400 "缺少deviceId参数") (status 400 res0), s)
  else
    match Map_get (deviceStatus s) deviceId with
    | None => (json (code_msg 404 "设备ID不存在") (status 404 res0), s)
    | Some device =>
        if refused device then
          (json (code_msg 403 (busy_msg deviceId device)) res0, s)
        else
          match guideTaskQueue s with
          | task :: rest =>
              (json {| code := 200; msg := None; task := Some task |} res0,
               {| deviceStatus := deviceStatus s; guideTaskQueue := rest |})
          | [] => (json (code_msg 204 "当前无待分配任务") res0, s)
          end
    end.

(** The five ways the handler ends, each with the tests that lead to it,
    the response written and the state left. *)
Inductive outcome (s : server) (deviceId : jsval) : res * server -> Prop :=
  | out_missing :
      truthy deviceId = false ->
      outcome s deviceId
        (json (code_msg 400 "缺少deviceId参数") (status 400 res0), s)
  | out_unknown :
      truthy deviceId = true ->
      Map_get (deviceStatus s) deviceId = None ->
      outcome s deviceId
        (json (code_msg 404 "设备ID不存在") (status 404 res0), s)
  | out_refused d :
      truthy deviceId = true ->
      Map_get (deviceStatus s) deviceId = Some d ->
      refused d = true ->
      outcome s deviceId (json (code_msg 403 (busy_msg deviceId d)) res0, s)
  | out_assigned d t rest :
      truthy deviceId = true ->
      Map_get (deviceStatus s) deviceId = Some d ->
      refused d = false ->
      guideTaskQueue s = t :: rest ->
      outcome s deviceId
        (json {| code := 200; msg := None; task := Some t |} res0,
         {| deviceStatus := deviceStatus s; guideTaskQueue := rest |})
  | out_empty d :
      truthy deviceId = true ->
      Map_get (deviceStatus s) deviceId = Some d ->
      refused d = false ->
      guideTaskQueue s = [] ->
      outcome s deviceId (json (code_msg 204 "当前无待分配任务") res0, s).

End Dispatch.

(** ** frontend/device-utils.js: time values

    A [Date] holds a time value, the milliseconds since the epoch, an
    integer.  The operations below are ECMAScript's, for a local zone with a
    fixed offset [LocalTZA] from UTC (no daylight-saving transition; the
    screens run on China Standard Time, [LocalTZA = 8h]). *)

Definition msPerSecond : Z := 1000.
Definition msPerMinute : Z := 60000.
Definition msPerHour : Z := 3600000.
Definition msPerDay : Z := 86400000.

Definition Day (t : Z) : Z := t / msPerDay.
Definition TimeWithinDay (t : Z) : Z := t mod msPerDay.

Definition MakeTime (hour min sec ms : Z) : Z :=
  hour * msPerHour + min * msPerMinute + sec * msPerSecond + ms.

Definition MakeDate (day time : Z) : Z := day * msPerDay + time.

Section LocalZone.

Variable LocalTZA : Z.

Definition LocalTime (t : Z) : Z := t + LocalTZA.
Definition UTC (t : Z) : Z := t - LocalTZA.

(** [d.setHours(hour, min, sec, ms)]: the local day of [d] is kept and its
    time within the day replaced. *)
Definition setHours (d hour min sec ms : Z) : Z :=
  UTC (MakeDate (Day (LocalTime d)) (MakeTime hour min sec ms)).

(** [d.setDate(d.getDate() + k)].  [getDate] is the local day of [d]
    counted from the first of its month, and [setDate] rebuilds the date
    from that month's first day and the new count ([MakeDay] carries a
    count past the end of the month into the following months), so the
    local day number moves by [k] and the time within the day is kept. *)
Definition setDate_getDate_plus (d k : Z) : Z :=
  UTC (MakeDate (Day (LocalTime d) + k) (TimeWithinDay (LocalTime d))).

(** The first four lines of [scheduleDailyReset]: the value of
    [resetTime] when the timer is set, for [now = new Date()]. *)
Definition resetTime (now : Z) : Z :=
  let resetTime := setHours now 2 0 0 0 in
  if now >? resetTime then setDate_getDate_plus resetTime 1 else resetTime.

(** [const delay = resetTime - now]. *)
Definition delay (now : Z) : Z := resetTime now - now.

End LocalZone.

(** China Standard Time. *)
Definition CST : Z := 8 * msPerHour.

(** ** frontend/device-utils.js: the page *)

(** Modelled from the spec: the rendering SDK is an external collaborator,
    used through [destroy] and [setDefaultBackground]; of the handle only
    the background it shows is kept, which [setDefaultBackground] puts on
    the default asset. *)
Inductive background : Type := SceneBackground | DefaultBackground.

Record sdk : Type := { sdk_background : background }.

Definition setDefaultBackground (h : sdk) : sdk :=
  {| sdk_background := DefaultBackground |}.

(** The functions handed to [setTimeout]. *)
Inductive callback : Type :=
  | initDigitalHumanSdk    (* [() => initDigitalHumanSdk()] *)
  | dailyReset.            (* the destroy / clear caches / reload action *)

Record timer : Type := { timer_callback : callback; timer_delay : Z }.

(** The lines written with [console.log]. *)
Inductive log_line : Type :=
  | log_reset_planned (resetTime hours : Z)
      (* [`计划每日重置：${resetTime.toLocaleString()}（约${Math.floor(delay/3600000)}小时后）`] *)
  | log_reconnect
      (* ["尝试重新连接SDK..."] *)
  | log_unhandled (errorCode : jsval).
      (* [`未处理的错误码：${errorCode}，请参考官方文档`] *)

(** What the functions read and write of the browser: the SDK handle
    [window.digitalHumanSdk] ([None] when null or undefined), the dialogs
    raised by [alert], the console, and the pending timers, in the order
    they were set. *)
Record window : Type := {
  digitalHumanSdk : option sdk;
  alerts : list string;
  console : list log_line;
  timers : list timer
}.

Definition alert (m : string) (w : window) : window :=
  {| digitalHumanSdk := digitalHumanSdk w;
     alerts := alerts w ++ [m];
     console := console w;
     timers := timers w |}.

Definition console_log (l : log_line) (w : window) : window :=
  {| digitalHumanSdk := digitalHumanSdk w;
     alerts := alerts w;
     console := console w ++ [l];
     timers := timers w |}.

Definition setTimeout (f : callback) (ms : Z) (w : window) : window :=
  {| digitalHumanSdk := digitalHumanSdk w;
     alerts := alerts w;
     console := console w;
     timers := timers w ++ [{| timer_callback := f; timer_delay := ms |}] |}.

(** [window.digitalHumanSdk?.setDefaultBackground()]. *)
Definition sdk_setDefaultBackground (w : window) : window :=
  {| digitalHumanSdk := setDefaultBackground <$> digitalHumanSdk w;
     alerts := alerts w;
     console := console w;
     timers := timers w |}.

(** [scheduleDailyReset], up to and including the [setTimeout] call, for
    [new Date()] returning [now]. *)
Definition scheduleDailyReset (LocalTZA now : Z) (w : window) : window :=
  let resetTime := resetTime LocalTZA now in
  let delay := resetTime - now in
  setTimeout dailyReset delay
    (console_log (log_reset_planned resetTime (delay / 3600000)) w).

(** [handleSdkError]: the cases of the [switch] are tried in order with
    [===]. *)
Definition handleSdkError (errorCode : jsval) (w : window) : window :=
  if strict_eq_num errorCode 10001 then
    alert "数字人容器初始化失败，请检查页面结构" w
  else if strict_eq_num errorCode 10002 then
    setTimeout initDigitalHumanSdk 5000 (console_log log_reconnect w)
  else if strict_eq_num errorCode 30001 then
    sdk_setDefaultBackground w
  else
    console_log (log_unhandled errorCode) w.


(** ** Concrete runs *)

(** A string-to-number conversion for closed runs: the runtime's on the
    empty string ([0]) and on plain decimal digit strings, [NaN] on the
    rest.  No run below compares a string with a number, so the conversion
    is never consulted in them. *)
Definition digitsToNumber (s : string) : option Q :=
  match DecimalString.NilEmpty.uint_of_string s with
  | Some u => Some (inject_Z (Z.of_uint u))
  | None => None
  end.

Definition screen5 : jsval := JStr "hospital-screen-5".

(** The state after [reportStatus("hospital-screen-5", true, 120)]. *)
Definition server_busy5 : server :=
  snd (report_status server0 screen5 (JBool true) (JNum 120)).

(** The state after [reportStatus("hospital-screen-5", false, 360)]. *)
Definition server_high5 : server :=
  snd (report_status server0 screen5 (JBool false) (JNum 360)).

(** The state after [reportStatus("hospital-screen-5", false, 100)]. *)
Definition server_idle5 : server :=
  snd (report_status server0 screen5 (JBool false) (JNum 100)).

(** [server_idle5] once its three tasks are handed out. *)
Definition server_drained5 : server :=
  {| deviceStatus := deviceStatus server_idle5; guideTaskQueue := [] |}.

(** 2025-01-01 02:00:00.000 China Standard Time, as a time value. *)
Definition two_oclock : Z := UTC CST (MakeDate 20089 (MakeTime 2 0 0 0)).

(** A page with a running SDK and the daily reset pending. *)
Definition page0 : window :=
  scheduleDailyReset CST (UTC CST (MakeDate 20089 (MakeTime 1 0 0 0)))
    {| digitalHumanSdk := Some {| sdk_background := SceneBackground |};
       alerts := []; console := []; timers := [] |}.


(** ** backend/server.js: provisioning and runs *)

(** The provisioning loop for a fleet of [n] screens,
    [for (let i = 0; i < n; i++) deviceStatus.set(...)]; the server runs it
    with [n = 20]. *)
Definition provision (n : nat) : gmap string device :=
  foldl (fun m i => <[screen_id i := {| isBusy := JBool false; memory := JNum 0 |}]> m)
        ∅ (seq 0 n).

(** A request to one of the two routes, with the fields its handler
    destructures. *)
Inductive request : Type :=
  | POST_report_status (deviceId isBusy memory : jsval)
  | GET_get_task (deviceId : jsval).

Section Serve.

Variable StringToNumber : string -> option Q.

(** The route table. *)
Definition handle (s : server) (rq : request) : res * server :=
  match rq with
  | POST_report_status deviceId isBusy memory =>
      report_status s deviceId isBusy memory
  | GET_get_task deviceId => get_task StringToNumber s deviceId
  end.

(** A run of the server: both handlers are synchronous, so the requests are
    served one after the other, each on the state the previous one left.
    The result is the responses, in order, and the final state. *)
Fixpoint serve (s : server) (rqs : list request) : list res * server :=
  match rqs with
  | [] => ([], s)
  | rq :: rqs =>
      let out := handle s rq in
      let outs := serve (snd out) rqs in
      (fst out :: fst outs, snd outs)
  end.

End Serve.

(** The tasks a list of responses carries, in order. *)
Definition tasks_sent (rs : list res) : list guideTask := omap sent_task rs.

(** ** frontend/device-utils.js: memory usage and the status report *)

(** [getMemoryUsage].  [has_window] is [typeof window !== 'undefined'] and
    [scaled] the value of [Math.random() * 50], a number from 0 up to, not
    including, 50 ([Math.random()] is at most [1 - 2^-53], and the product
    rounds to a binary64 value below 50).  [Math.floor] of it is an
    integer, and so is the sum. *)
Definition getMemoryUsage (has_window : bool) (scaled : Q) : Z :=
  if has_window then Qfloor scaled + 280 else 0.

(** One tick of [startStatusReport], from the sample to the server's
    answer, for a request that reaches the server: the body is
    [{ deviceId: DEVICE_ID, isBusy: window.voicePlaying, memory: memoryUsage }].
    [JSON.stringify] leaves out a property whose value is [undefined], which
    the handler then destructures as [undefined], and keeps [null],
    booleans, numbers and strings as they are. *)
Definition status_report (s : server) (DEVICE_ID : string) (voicePlaying : jsval)
    (scaled : Q) : res * server :=
  report_status s (JStr DEVICE_ID) voicePlaying
    (JNum (inject_Z (getMemoryUsage true scaled))).

(** ** frontend/device-utils.js: error codes in sequence *)

(** The SDK's error callback, called once per code. *)
Definition handleSdkErrors (errorCodes : list jsval) (w : window) : window :=
  foldl (fun w errorCode => handleSdkError errorCode w) w errorCodes.

(** ** frontend/device-utils.js: the daily reset action *)







(** * Properties *)

(** ** Values and keys *)

Lemma Qgtb_true (n k : Q) : Qgtb n k = true <-> (k < n)%Q.
Proof.
  unfold Qgtb. rewrite negb_true_iff, <- not_true_iff_false, Qle_bool_iff.
  split; [apply Qnot_le_lt | apply Qlt_not_le].
Qed.

Lemma Qgtb_false (n k : Q) : Qgtb n k = false <-> (n <= k)%Q.
Proof. unfold Qgtb. rewrite negb_false_iff. apply Qle_bool_iff. Qed.

Lemma truthy_JStr (k : string) : truthy (JStr k) = true <-> k ≠ "".
Proof.
  simpl. rewrite negb_true_iff. destruct (String.eqb_spec k ""); split; congruence.
Qed.

(** Only a string is ever found in the registry. *)
Lemma Map_get_Some (m : gmap string device) (v : jsval) (d : device) :
  Map_get m v = Some d -> exists k, v = JStr k /\ m !! k = Some d.
Proof. destruct v; simpl; try discriminate. eauto. Qed.

Lemma Map_has_true (m : gmap string device) (v : jsval) :
  Map_has m v = true <-> exists k d, v = JStr k /\ m !! k = Some d.
Proof.
  unfold Map_has. split.
  - destruct (Map_get m v) as [d|] eqn:E; [|discriminate].
    intros _. apply Map_get_Some in E as (k & -> & E). eauto.
  - intros (k & d & -> & E). simpl. by rewrite E.
Qed.

(** The provisioned identifiers are [hospital-screen-0] to
    [hospital-screen-19], each initially idle with no memory in use. *)
Lemma deviceStatus0_lookup (i : nat) :
  (i < 20)%nat ->
  deviceStatus0 !! screen_id i = Some {| isBusy := JBool false; memory := JNum 0 |}.
Proof.
  intros H. do 20 (destruct i as [|i]; [vm_compute; reflexivity|]). lia.
Qed.

(** ** GET /get-task, branch by branch *)

Section DispatchProperties.

Variable StringToNumber : string -> option Q.

Lemma get_task_missing (s : server) (deviceId : jsval) :
  truthy deviceId = false ->
  get_task StringToNumber s deviceId =
    (json (code_msg 400 "缺少deviceId参数") (status 400 res0), s).
Proof. intros H. unfold get_task. by rewrite H. Qed.

Lemma get_task_unknown (s : server) (deviceId : jsval) :
  truthy deviceId = true ->
  Map_get (deviceStatus s) deviceId = None ->
  get_task StringToNumber s deviceId =
    (json (code_msg 404 "设备ID不存在") (status 404 res0), s).
Proof. intros H1 H2. unfold get_task. by rewrite H1, H2. Qed.

Lemma get_task_refused (s : server) (deviceId : jsval) (d : device) :
  truthy deviceId = true ->
  Map_get (deviceStatus s) deviceId = Some d ->
  refused StringToNumber d = true ->
  get_task StringToNumber s deviceId = (json (code_msg 403 (busy_msg deviceId d)) res0, s).
Proof. intros H1 H2 H3. unfold get_task. by rewrite H1, H2, H3. Qed.

Lemma get_task_assigned (s : server) (deviceId : jsval) (d : device)
    (t : guideTask) (rest : list guideTask) :
  truthy deviceId = true ->
  Map_get (deviceStatus s) deviceId = Some d ->
  refused StringToNumber d = false ->
  guideTaskQueue s = t :: rest ->
  get_task StringToNumber s deviceId =
    (json {| code := 200; msg := None; task := Some t |} res0,
     {| deviceStatus := deviceStatus s; guideTaskQueue := rest |}).
Proof. intros H1 H2 H3 H4. unfold get_task. by rewrite H1, H2, H3, H4. Qed.

Lemma get_task_empty (s : server) (deviceId : jsval) (d : device) :
  truthy deviceId = true ->
  Map_get (deviceStatus s) deviceId = Some d ->
  refused StringToNumber d = false ->
  guideTaskQueue s = [] ->
  get_task StringToNumber s deviceId = (json (code_msg 204 "当前无待分配任务") res0, s).
Proof. intros H1 H2 H3 H4. unfold get_task. by rewrite H1, H2, H3, H4. Qed.

Lemma get_task_outcome (s : server) (deviceId : jsval) :
  outcome StringToNumber s deviceId (get_task StringToNumber s deviceId).
Proof.
  destruct (truthy deviceId) eqn:H1.
  2: { rewrite get_task_missing by done. by constructor. }
  destruct (Map_get (deviceStatus s) deviceId) as [d|] eqn:H2.
  2: { rewrite get_task_unknown by done. by constructor. }
  destruct (refused StringToNumber d) eqn:H3.
  { rewrite (get_task_refused _ _ d) by done. by econstructor. }
  destruct (guideTaskQueue s) as [|t rest] eqn:H4.
  - rewrite (get_task_empty _ _ d) by done. by econstructor.
  - rewrite (get_task_assigned _ _ d t rest) by done. by econstructor.
Qed.

(** The refusal test on a record holding a boolean and a number. *)
Lemma refused_typed (b : bool) (m : Q) :
  refused StringToNumber {| isBusy := JBool b; memory := JNum m |} = true
  <-> b = true \/ (350 < m)%Q.
Proof.
  unfold refused, gt_num. simpl.
  rewrite orb_true_iff, Qgtb_true. reflexivity.
Qed.

Lemma accepted_typed (b : bool) (m : Q) :
  refused StringToNumber {| isBusy := JBool b; memory := JNum m |} = false
  <-> b = false /\ (m <= 350)%Q.
Proof.
  unfold refused, gt_num. simpl.
  rewrite orb_false_iff, Qgtb_false. reflexivity.
Qed.

Lemma refused_true_iff (d : device) :
  refused StringToNumber d = true
  <-> truthy (isBusy d) = true \/ gt_num StringToNumber (memory d) 350 = true.
Proof. unfold refused. apply orb_true_iff. Qed.

Lemma refused_false_iff (d : device) :
  refused StringToNumber d = false
  <-> truthy (isBusy d) = false /\ gt_num StringToNumber (memory d) 350 = false.
Proof. unfold refused. apply orb_false_iff. Qed.

(** ** The health gate *)

(** C1. For every state of the server and every identifier [k] of the
    registry, with record [d]: when [d] is busy or its memory is above 350,
    the request is answered with the busy response (code 403, no task) and
    the state, so the queue, is left as it was; a task is handed out only
    when [d] is not busy and its memory is not above 350.  For a record
    holding a boolean [b] and a number [m] the two conditions read
    [b = true \/ 350 < m] and [b = false /\ m <= 350]. *)
Theorem get_task_health_gate (s : server) (k : string) (d : device) :
  k ≠ "" ->
  deviceStatus s !! k = Some d ->
  let out := get_task StringToNumber s (JStr k) in
  (truthy (isBusy d) = true \/ gt_num StringToNumber (memory d) 350 = true ->
     sent_code (fst out) = 403 /\ sent_task (fst out) = None /\ snd out = s)
  /\ (is_Some (sent_task (fst out)) ->
        truthy (isBusy d) = false /\ gt_num StringToNumber (memory d) 350 = false)
  /\ (forall (b : bool) (m : Q),
        d = {| isBusy := JBool b; memory := JNum m |} ->
        (b = true \/ (350 < m)%Q ->
           sent_code (fst out) = 403 /\ sent_task (fst out) = None
           /\ guideTaskQueue (snd out) = guideTaskQueue s)
        /\ (is_Some (sent_task (fst out)) -> b = false /\ (m <= 350)%Q)).
Proof.
  intros Hk Hd out.
  assert (Ht : truthy (JStr k) = true) by by apply truthy_JStr.
  assert (Hg : Map_get (deviceStatus s) (JStr k) = Some d) by exact Hd.
  assert (Hbusy : refused StringToNumber d = true ->
            sent_code (fst out) = 403 /\ sent_task (fst out) = None /\ snd out = s).
  { intros Hr. subst out. by rewrite (get_task_refused s (JStr k) d). }
  assert (Hfree : is_Some (sent_task (fst out)) -> refused StringToNumber d = false).
  { intros [t Hs]. destruct (refused StringToNumber d) eqn:Hr; [|done].
    destruct (Hbusy eq_refl) as (_ & Hn & _). congruence. }
  split; [|split].
  - intros H. by apply Hbusy, refused_true_iff.
  - intros H. by apply refused_false_iff, Hfree.
  - intros b m ->. split.
    + intros H. apply refused_typed in H.
      destruct (Hbusy H) as (? & ? & ->). done.
    + intros H. by apply (accepted_typed b m), Hfree.
Qed.

(** A request of an accepted device on an explicit state: the head of the
    queue, or the empty-queue answer. *)
Lemma get_task_pop (m : gmap string device) (q : list guideTask) (k : string)
    (d : device) :
  k ≠ "" ->
  m !! k = Some d ->
  refused StringToNumber d = false ->
  get_task StringToNumber {| deviceStatus := m; guideTaskQueue := q |} (JStr k) =
    match q with
    | t :: rest =>
        (json {| code := 200; msg := None; task := Some t |} res0,
         {| deviceStatus := m; guideTaskQueue := rest |})
    | [] =>
        (json (code_msg 204 "当前无待分配任务") res0,
         {| deviceStatus := m; guideTaskQueue := [] |})
    end.
Proof.
  intros Hk Hd Hr. apply truthy_JStr in Hk. destruct q as [|t rest].
  - by apply (get_task_empty {| deviceStatus := m; guideTaskQueue := [] |} _ d).
  - by apply (get_task_assigned
                {| deviceStatus := m; guideTaskQueue := t :: rest |} _ d t rest).
Qed.

(** ** First in, first out *)

(** C2. With the queue holding [T1; T2; T3] and a device recorded idle with
    100 MB in use, three requests in a row are answered with [T1], [T2] and
    [T3], each taking exactly the head off the queue, and a fourth with the
    empty-queue answer (code 204, sent with the default status 200, state
    unchanged). *)
Theorem get_task_fifo (s : server) (k : string) (T1 T2 T3 : guideTask) :
  k ≠ "" ->
  deviceStatus s !! k = Some {| isBusy := JBool false; memory := JNum 100 |} ->
  guideTaskQueue s = [T1; T2; T3] ->
  let out1 := get_task StringToNumber s (JStr k) in
  let out2 := get_task StringToNumber (snd out1) (JStr k) in
  let out3 := get_task StringToNumber (snd out2) (JStr k) in
  let out4 := get_task StringToNumber (snd out3) (JStr k) in
  (sent (fst out1) = Some {| code := 200; msg := None; task := Some T1 |}
   /\ guideTaskQueue (snd out1) = [T2; T3])
  /\ (sent (fst out2) = Some {| code := 200; msg := None; task := Some T2 |}
      /\ guideTaskQueue (snd out2) = [T3])
  /\ (sent (fst out3) = Some {| code := 200; msg := None; task := Some T3 |}
      /\ guideTaskQueue (snd out3) = [])
  /\ (sent_code (fst out4) = 204 /\ sent_task (fst out4) = None
      /\ statusCode (fst out4) = 200 /\ snd out4 = snd out3).
Proof.
  intros Hk Hd Hq.
  assert (Hr : refused StringToNumber {| isBusy := JBool false; memory := JNum 100 |} = false).
  { apply accepted_typed. split; [done|]. by vm_compute. }
  destruct s as [m q]. simpl in Hd, Hq. subst q. cbv zeta.
  rewrite !(get_task_pop m _ k _ Hk Hd Hr). simpl.
  rewrite !(get_task_pop m _ k _ Hk Hd Hr). simpl.
  rewrite !(get_task_pop m _ k _ Hk Hd Hr). simpl.
  rewrite !(get_task_pop m _ k _ Hk Hd Hr). simpl.
  done.
Qed.

(** ** The reason of a refusal *)

(** C3. The busy response names one of two reasons: the running reason
    [运行中] when the record is busy, whatever its memory, and the memory
    reason [内存过高] when it is not busy and its memory is above 350.  So
    after a provisioned [hospital-screen-5] reports [(true, 120)] its
    request is refused as running, and after it reports [(false, 360)] as
    over memory. *)
Theorem get_task_reason (s : server) (k : string) (d : device) :
  k ≠ "" ->
  deviceStatus s !! k = Some d ->
  let r := fst (get_task StringToNumber s (JStr k)) in
  (truthy (isBusy d) = true ->
     sent r = Some (code_msg 403 ("设备" +:+ k +:+ "忙（运行中）")))
  /\ (truthy (isBusy d) = false -> gt_num StringToNumber (memory d) 350 = true ->
        sent r = Some (code_msg 403 ("设备" +:+ k +:+ "忙（内存过高）")))
  /\ (forall m : jsval, d = {| isBusy := JBool true; memory := m |} ->
        sent r = Some (code_msg 403 ("设备" +:+ k +:+ "忙（运行中）")))
  /\ (forall m : Q, d = {| isBusy := JBool false; memory := JNum m |} -> (350 < m)%Q ->
        sent r = Some (code_msg 403 ("设备" +:+ k +:+ "忙（内存过高）")))
  /\ (k = "hospital-screen-5" ->
        let s1 := snd (report_status s screen5 (JBool true) (JNum 120)) in
        let s2 := snd (report_status s screen5 (JBool false) (JNum 360)) in
        get_task StringToNumber s1 screen5 =
          (json (code_msg 403 "设备hospital-screen-5忙（运行中）") res0, s1)
        /\ get_task StringToNumber s2 screen5 =
             (json (code_msg 403 "设备hospital-screen-5忙（内存过高）") res0, s2)).
Proof.
  intros Hk Hd r.
  assert (Ht : truthy (JStr k) = true) by by apply truthy_JStr.
  assert (Hrun : truthy (isBusy d) = true ->
            sent r = Some (code_msg 403 ("设备" +:+ k +:+ "忙（运行中）"))).
  { intros Hb. subst r. rewrite (get_task_refused s (JStr k) d); try done.
    - simpl. unfold busy_msg, busy_reason. by rewrite Hb.
    - apply refused_true_iff. by left. }
  assert (Hmem : truthy (isBusy d) = false ->
            gt_num StringToNumber (memory d) 350 = true ->
            sent r = Some (code_msg 403 ("设备" +:+ k +:+ "忙（内存过高）"))).
  { intros Hb Hm. subst r. rewrite (get_task_refused s (JStr k) d); try done.
    - simpl. unfold busy_msg, busy_reason. by rewrite Hb.
    - apply refused_true_iff. by right. }
  repeat split; try done.
  - intros m ->. by apply Hrun.
  - intros m -> Hm. apply Hmem; [done|]. unfold gt_num. simpl. by apply Qgtb_true.
  - subst k. unfold report_status, screen5, Map_has. simpl. rewrite Hd. simpl.
    rewrite (get_task_refused _ _ {| isBusy := JBool true; memory := JNum 120 |});
      [done | done | simpl; by rewrite lookup_insert_eq | done].
  - subst k. unfold report_status, screen5, Map_has. simpl. rewrite Hd. simpl.
    rewrite (get_task_refused _ _ {| isBusy := JBool false; memory := JNum 360 |});
      [done | done | simpl; by rewrite lookup_insert_eq | by vm_compute].
Qed.

(** ** HTTP status and body code *)

(** C4, as the handler has it.  The HTTP status is set with [res.status]
    on the two validation errors only: 400 when [deviceId] is missing and
    404 when it is unknown, each with the same code in the body.  The busy
    answer, the assignment and the empty-queue answer are all sent with the
    default status 200; their body codes are 403, 200 and 204. *)
Theorem get_task_http_status (s : server) (deviceId : jsval) :
  let r := fst (get_task StringToNumber s deviceId) in
  (truthy deviceId = false -> statusCode r = 400 /\ sent_code r = 400)
  /\ (truthy deviceId = true -> Map_get (deviceStatus s) deviceId = None ->
        statusCode r = 404 /\ sent_code r = 404)
  /\ (forall d : device,
        truthy deviceId = true -> Map_get (deviceStatus s) deviceId = Some d ->
        refused StringToNumber d = true ->
        statusCode r = 200 /\ sent_code r = 403
        /\ sent_msg r = Some (busy_msg deviceId d))
  /\ (forall (d : device) (t : guideTask) (rest : list guideTask),
        truthy deviceId = true -> Map_get (deviceStatus s) deviceId = Some d ->
        refused StringToNumber d = false -> guideTaskQueue s = t :: rest ->
        statusCode r = 200 /\ sent_code r = 200 /\ sent_task r = Some t)
  /\ (forall d : device,
        truthy deviceId = true -> Map_get (deviceStatus s) deviceId = Some d ->
        refused StringToNumber d = false -> guideTaskQueue s = [] ->
        statusCode r = 200 /\ sent_code r = 204 /\ sent_task r = None)
  /\ (statusCode r = sent_code r
      \/ statusCode r = 200 /\ (sent_code r = 403 \/ sent_code r = 204)).
Proof.
  intros r. subst r. repeat split.
  1-2: by rewrite get_task_missing.
  1-2: by rewrite get_task_unknown.
  1-3: by rewrite (get_task_refused s deviceId d).
  1-3: by rewrite (get_task_assigned s deviceId d t rest).
  1-3: by rewrite (get_task_empty s deviceId d).
  destruct (get_task_outcome s deviceId); simpl; auto.
Qed.

(** ** What a request leaves untouched *)

(** C9. A request never changes the registry, whatever it carries.  It
    takes a task off the queue exactly when it answers with code 200, and
    then the task sent is the head it took; with any other answer (400,
    404, 403, 204) the whole state is as before. *)
Theorem get_task_frame (s : server) (deviceId : jsval) :
  let out := get_task StringToNumber s deviceId in
  deviceStatus (snd out) = deviceStatus s
  /\ (sent_code (fst out) = 200 ->
        exists t : guideTask,
          sent_task (fst out) = Some t
          /\ guideTaskQueue s = t :: guideTaskQueue (snd out))
  /\ (sent_code (fst out) ≠ 200 -> snd out = s)
  /\ (guideTaskQueue (snd out) ≠ guideTaskQueue s -> sent_code (fst out) = 200)
  /\ (sent_code (fst out) = 400 \/ sent_code (fst out) = 404
      \/ sent_code (fst out) = 403 \/ sent_code (fst out) = 204
      \/ sent_code (fst out) = 200).
Proof.
  intros out. subst out.
  destruct (get_task_outcome s deviceId); simpl; repeat split;
    try done; try (intros; by eauto); auto 6.
Qed.

(** ** The empty identifier *)

(** C10. An empty-string [deviceId] fails the presence test of both
    handlers: each answers 400 (status and body code), whatever else the
    request carries and whatever the registry holds, and leaves the state as
    it was; the registry is not looked up, so the answer is never 404. *)
Theorem empty_deviceId_is_missing (s : server) (isBusy memory : jsval) :
  report_status s (JStr "") isBusy memory =
    (json (code_msg 400 "参数不全（需deviceId/isBusy/memory）") (status 400 res0), s)
  /\ get_task StringToNumber s (JStr "") =
       (json (code_msg 400 "缺少deviceId参数") (status 400 res0), s)
  /\ statusCode (fst (report_status s (JStr "") isBusy memory)) = 400
  /\ statusCode (fst (get_task StringToNumber s (JStr ""))) = 400.
Proof. done. Qed.

End DispatchProperties.

(** ** POST /report-status, branch by branch *)

Lemma report_status_incomplete (s : server) (deviceId isBusy memory : jsval) :
  incomplete deviceId isBusy memory = true ->
  report_status s deviceId isBusy memory =
    (json (code_msg 400 "参数不全（需deviceId/isBusy/memory）") (status 400 res0), s).
Proof. intros H. unfold report_status. by rewrite H. Qed.

Lemma report_status_unknown (s : server) (deviceId isBusy memory : jsval) :
  incomplete deviceId isBusy memory = false ->
  Map_get (deviceStatus s) deviceId = None ->
  report_status s deviceId isBusy memory =
    (json (code_msg 404 "设备ID不存在（需为hospital-screen-0至19）") (status 404 res0), s).
Proof. intros H1 H2. unfold report_status, Map_has. by rewrite H1, H2. Qed.

Lemma report_status_accepted (s : server) (k : string) (d : device)
    (isBusy memory : jsval) :
  incomplete (JStr k) isBusy memory = false ->
  deviceStatus s !! k = Some d ->
  report_status s (JStr k) isBusy memory =
    (json (code_msg 200 "状态更新成功") res0,
     {| deviceStatus :=
          <[k := {| isBusy := isBusy; memory := memory |}]> (deviceStatus s);
        guideTaskQueue := guideTaskQueue s |}).
Proof. intros H1 H2. unfold report_status, Map_has. simpl. by rewrite H1, H2. Qed.

Lemma incomplete_false (deviceId isBusy memory : jsval) :
  incomplete deviceId isBusy memory = false
  <-> truthy deviceId = true /\ is_undefined isBusy = false
      /\ is_undefined memory = false.
Proof.
  unfold incomplete. rewrite !orb_false_iff, negb_false_iff. tauto.
Qed.

(** No report touches the queue or the set of registered identifiers:
    records are overwritten, never created or deleted. *)
Lemma report_status_keeps (s : server) (deviceId isBusy memory : jsval) :
  let s' := snd (report_status s deviceId isBusy memory) in
  guideTaskQueue s' = guideTaskQueue s
  /\ dom (deviceStatus s') = dom (deviceStatus s).
Proof.
  unfold report_status.
  destruct (incomplete deviceId isBusy memory); [done|].
  destruct (Map_has (deviceStatus s) deviceId) eqn:H; [|done].
  apply Map_has_true in H as (k & d & -> & H). simpl. split; [done|].
  apply dom_insert_lookup_L. by exists d.
Qed.

(** ** Reports from outside the fleet *)

(** C5, as the handler has it.  A report whose [deviceId] is not a key of
    the registry is never accepted and leaves the whole state, registry and
    queue, exactly as it was.  Its answer is 404 when the report is
    complete ([deviceId] truthy, [isBusy] and [memory] present), and 400
    otherwise: the presence test comes before the lookup. *)
Theorem report_status_outside_fleet (s : server) (deviceId isBusy memory : jsval) :
  Map_get (deviceStatus s) deviceId = None ->
  let out := report_status s deviceId isBusy memory in
  snd out = s
  /\ (incomplete deviceId isBusy memory = false ->
        statusCode (fst out) = 404 /\ sent_code (fst out) = 404)
  /\ (incomplete deviceId isBusy memory = true ->
        statusCode (fst out) = 400 /\ sent_code (fst out) = 400)
  /\ sent_code (fst out) ≠ 200.
Proof.
  intros Hg out. subst out.
  destruct (incomplete deviceId isBusy memory) eqn:Hi.
  - by rewrite report_status_incomplete.
  - by rewrite report_status_unknown.
Qed.

(** ** What a report is checked for *)

(** C6, as the handler has it.  A report is rejected as a bad request (400,
    nothing overwritten) when [isBusy] or [memory] is absent.  The handler
    tests presence only: for a registered device every report carrying both
    fields, of whatever type, is accepted with 200 and the two values are
    stored as they came. *)
Theorem report_status_presence_only (s : server) (deviceId isBusy memory : jsval) :
  let out := report_status s deviceId isBusy memory in
  (is_undefined isBusy = true \/ is_undefined memory = true ->
     statusCode (fst out) = 400 /\ sent_code (fst out) = 400 /\ snd out = s)
  /\ (forall (k : string) (d : device),
        deviceId = JStr k -> k ≠ "" -> deviceStatus s !! k = Some d ->
        is_undefined isBusy = false -> is_undefined memory = false ->
        statusCode (fst out) = 200 /\ sent_code (fst out) = 200
        /\ deviceStatus (snd out) =
             <[k := {| isBusy := isBusy; memory := memory |}]> (deviceStatus s)
        /\ guideTaskQueue (snd out) = guideTaskQueue s).
Proof.
  intros out. subst out. split.
  - intros H. rewrite report_status_incomplete; [done|].
    unfold incomplete. destruct H as [-> | ->]; by rewrite ?orb_true_r.
  - intros k d -> Hk Hd Hb Hm.
    rewrite (report_status_accepted s k d); [done| |done].
    apply incomplete_false. by rewrite truthy_JStr.
Qed.

(** ** The daily reset target *)

Lemma setHours_local (LocalTZA d hour min sec ms : Z) :
  LocalTime LocalTZA (setHours LocalTZA d hour min sec ms) =
    MakeDate (Day (LocalTime LocalTZA d)) (MakeTime hour min sec ms).
Proof. unfold setHours, UTC, LocalTime. lia. Qed.

(** The target, by the position of [now] in its local day. *)
Lemma resetTime_cases (LocalTZA now : Z) :
  let today := Day (LocalTime LocalTZA now) in
  resetTime LocalTZA now =
    if TimeWithinDay (LocalTime LocalTZA now) <=? MakeTime 2 0 0 0
    then UTC LocalTZA (MakeDate today (MakeTime 2 0 0 0))
    else UTC LocalTZA (MakeDate (today + 1) (MakeTime 2 0 0 0)).
Proof.
  unfold resetTime, setDate_getDate_plus, setHours, UTC, LocalTime, MakeDate,
    MakeTime, Day, TimeWithinDay, msPerDay, msPerHour, msPerMinute, msPerSecond.
  cbv zeta.
  destruct (Z.gtb_spec now
              ((now + LocalTZA) / 86400000 * 86400000
               + (2 * 3600000 + 0 * 60000 + 0 * 1000 + 0) - LocalTZA));
    destruct (Z.leb_spec ((now + LocalTZA) mod 86400000)
                (2 * 3600000 + 0 * 60000 + 0 * 1000 + 0));
    try (exfalso; Z.div_mod_to_equations; lia); [|reflexivity].
  f_equal. Z.div_mod_to_equations. lia.
Qed.

(** C7, as the function has it.  The target is at 02:00:00.000 local time
    and is the first such instant at or after [now]: it is never before
    [now] and less than a day after it.  It is strictly after [now] except
    when [now] is itself exactly 02:00:00.000, where the test [now >
    resetTime] fails and the target is [now] (a delay of zero).  For [now]
    at 01:00 the target is 02:00 of the same day, and for [now] at 03:00 it
    is 02:00 of the next day. *)
Theorem resetTime_next_two_oclock (LocalTZA now : Z) :
  let target := resetTime LocalTZA now in
  TimeWithinDay (LocalTime LocalTZA target) = MakeTime 2 0 0 0
  /\ now <= target < now + msPerDay
  /\ (target = now <-> TimeWithinDay (LocalTime LocalTZA now) = MakeTime 2 0 0 0)
  /\ (TimeWithinDay (LocalTime LocalTZA now) ≠ MakeTime 2 0 0 0 -> now < target)
  /\ (forall day : Z,
        now = UTC LocalTZA (MakeDate day (MakeTime 1 0 0 0)) ->
        target = UTC LocalTZA (MakeDate day (MakeTime 2 0 0 0)))
  /\ (forall day : Z,
        now = UTC LocalTZA (MakeDate day (MakeTime 3 0 0 0)) ->
        target = UTC LocalTZA (MakeDate (day + 1) (MakeTime 2 0 0 0))).
Proof.
  intros target. subst target. rewrite resetTime_cases. cbv zeta.
  unfold UTC, LocalTime, MakeDate, MakeTime, Day, TimeWithinDay,
    msPerDay, msPerHour, msPerMinute, msPerSecond.
  destruct (Z.leb_spec ((now + LocalTZA) mod 86400000)
              (2 * 3600000 + 0 * 60000 + 0 * 1000 + 0));
    repeat split; intros; subst; Z.div_mod_to_equations; lia.
Qed.

(** ** SDK error handling *)

(** Whatever the code, the timers already pending stay as they are; at
    most one is added behind them, and only for code 10002. *)
Lemma handleSdkError_timers (errorCode : jsval) (w : window) :
  timers (handleSdkError errorCode w) =
    timers w ++
      (if strict_eq_num errorCode 10001 then []
       else if strict_eq_num errorCode 10002
            then [{| timer_callback := initDigitalHumanSdk; timer_delay := 5000 |}]
            else []).
Proof.
  unfold handleSdkError.
  destruct (strict_eq_num errorCode 10001); [simpl; by rewrite app_nil_r|].
  destruct (strict_eq_num errorCode 10002); [done|].
  destruct (strict_eq_num errorCode 30001); simpl; by rewrite app_nil_r.
Qed.

(** Only code 10001 raises a dialog. *)
Lemma handleSdkError_alerts (errorCode : jsval) (w : window) :
  strict_eq_num errorCode 10001 = false ->
  alerts (handleSdkError errorCode w) = alerts w.
Proof.
  intros H. unfold handleSdkError. rewrite H.
  destruct (strict_eq_num errorCode 10002); [done|].
  by destruct (strict_eq_num errorCode 30001).
Qed.

(** C8. The policy of [handleSdkError], code by code.
    - 10001: one dialog is raised; no timer is set, the SDK handle and the
      console are untouched.
    - 10002: one [initDigitalHumanSdk] timer of 5000 ms is added behind the
      pending timers, which stay as they are; in particular a daily reset
      set before by [scheduleDailyReset] is still pending with its delay.
    - 30001: the SDK handle, if there is one, is put on the default
      background; nothing else changes.
    - any other value: one console line; no dialog, no timer, the SDK
      handle untouched. *)
Theorem handleSdkError_policy (w : window) :
  handleSdkError (JNum 10001) w =
    {| digitalHumanSdk := digitalHumanSdk w;
       alerts := alerts w ++ ["数字人容器初始化失败，请检查页面结构"];
       console := console w;
       timers := timers w |}
  /\ handleSdkError (JNum 10002) w =
       {| digitalHumanSdk := digitalHumanSdk w;
          alerts := alerts w;
          console := console w ++ [log_reconnect];
          timers := timers w ++
            [{| timer_callback := initDigitalHumanSdk; timer_delay := 5000 |}] |}
  /\ (forall LocalTZA now : Z,
        timers (handleSdkError (JNum 10002) (scheduleDailyReset LocalTZA now w)) =
          timers w ++
            [{| timer_callback := dailyReset; timer_delay := delay LocalTZA now |};
             {| timer_callback := initDigitalHumanSdk; timer_delay := 5000 |}])
  /\ handleSdkError (JNum 30001) w =
       {| digitalHumanSdk := setDefaultBackground <$> digitalHumanSdk w;
          alerts := alerts w;
          console := console w;
          timers := timers w |}
  /\ (forall h : sdk,
        digitalHumanSdk w = Some h ->
        digitalHumanSdk (handleSdkError (JNum 30001) w) =
          Some {| sdk_background := DefaultBackground |})
  /\ (forall errorCode : jsval,
        strict_eq_num errorCode 10001 = false ->
        strict_eq_num errorCode 10002 = false ->
        strict_eq_num errorCode 30001 = false ->
        handleSdkError errorCode w =
          {| digitalHumanSdk := digitalHumanSdk w;
             alerts := alerts w;
             console := console w ++ [log_unhandled errorCode];
             timers := timers w |}).
Proof.
  repeat split.
  - intros LocalTZA now. rewrite handleSdkError_timers. simpl.
    by rewrite <- app_assoc.
  - intros h Hh. simpl. by rewrite Hh.
  - intros errorCode H1 H2 H3. unfold handleSdkError. by rewrite H1, H2, H3.
Qed.

(** * Concrete runs of the properties *)

(** C1 at [hospital-screen-5] after it reported 360 MB: refused, no task,
    state unchanged. *)
Lemma get_task_health_gate_witness :
  "hospital-screen-5" ≠ ""
  /\ deviceStatus server_high5 !! "hospital-screen-5" =
       Some {| isBusy := JBool false; memory := JNum 360 |}
  /\ sent_code (fst (get_task digitsToNumber server_high5 screen5)) = 403
  /\ sent_task (fst (get_task digitsToNumber server_high5 screen5)) = None
  /\ guideTaskQueue (snd (get_task digitsToNumber server_high5 screen5)) =
       guideTaskQueue server_high5.
Proof.
  assert (H1 : "hospital-screen-5" ≠ "") by discriminate.
  assert (H2 : deviceStatus server_high5 !! "hospital-screen-5" =
                 Some {| isBusy := JBool false; memory := JNum 360 |})
    by (vm_compute; reflexivity).
  split; [exact H1|]. split; [exact H2|].
  destruct (get_task_health_gate digitsToNumber server_high5 _ _ H1 H2)
    as (_ & _ & H).
  apply (H false 360%Q eq_refl). right. reflexivity.
Defined.

(** C2 on the three tasks the server starts with. *)
Lemma get_task_fifo_witness :
  "hospital-screen-5" ≠ ""
  /\ deviceStatus server_idle5 !! "hospital-screen-5" =
       Some {| isBusy := JBool false; memory := JNum 100 |}
  /\ guideTaskQueue server_idle5 = guideTaskQueue0
  /\ sent_task (fst (get_task digitsToNumber server_idle5 screen5)) =
       guideTaskQueue0 !! 0%nat.
Proof.
  assert (H1 : "hospital-screen-5" ≠ "") by discriminate.
  assert (H2 : deviceStatus server_idle5 !! "hospital-screen-5" =
                 Some {| isBusy := JBool false; memory := JNum 100 |})
    by (vm_compute; reflexivity).
  assert (H3 : guideTaskQueue server_idle5 = guideTaskQueue0) by reflexivity.
  split; [exact H1|]. split; [exact H2|]. split; [exact H3|].
  destruct (get_task_fifo digitsToNumber server_idle5 _ _ _ _ H1 H2 H3)
    as ((H & _) & _).
  unfold sent_task, screen5. rewrite H. reflexivity.
Defined.

(** C3 on the initial server: the two scenarios of [hospital-screen-5]. *)
Lemma get_task_reason_witness :
  "hospital-screen-5" ≠ ""
  /\ deviceStatus server0 !! "hospital-screen-5" =
       Some {| isBusy := JBool false; memory := JNum 0 |}
  /\ get_task digitsToNumber server_busy5 screen5 =
       (json (code_msg 403 "设备hospital-screen-5忙（运行中）") res0, server_busy5)
  /\ get_task digitsToNumber server_high5 screen5 =
       (json (code_msg 403 "设备hospital-screen-5忙（内存过高）") res0, server_high5).
Proof.
  assert (H1 : "hospital-screen-5" ≠ "") by discriminate.
  assert (H2 : deviceStatus server0 !! "hospital-screen-5" =
                 Some {| isBusy := JBool false; memory := JNum 0 |})
    by (vm_compute; reflexivity).
  split; [exact H1|]. split; [exact H2|].
  destruct (get_task_reason digitsToNumber server0 _ _ H1 H2)
    as (_ & _ & _ & _ & H).
  exact (H eq_refl).
Defined.

(** C4 fails on the two answers sent without [res.status]: a busy device
    is answered with HTTP status 200 and body code 403, and an empty queue
    with HTTP status 200 and body code 204. *)
Lemma get_task_status_differs_from_code :
  (statusCode (fst (get_task digitsToNumber server_busy5 screen5)) = 200
   /\ sent_code (fst (get_task digitsToNumber server_busy5 screen5)) = 403)
  /\ (statusCode (fst (get_task digitsToNumber server_drained5 screen5)) = 200
      /\ sent_code (fst (get_task digitsToNumber server_drained5 screen5)) = 204).
Proof. split; split; vm_compute; reflexivity. Qed.

(** C5 at [hospital-screen-20], which is outside the fleet: 404, state
    unchanged. *)
Lemma report_status_outside_fleet_witness :
  Map_get (deviceStatus server0) (JStr "hospital-screen-20") = None
  /\ snd (report_status server0 (JStr "hospital-screen-20") (JBool false) (JNum 0))
     = server0
  /\ sent_code
       (fst (report_status server0 (JStr "hospital-screen-20") (JBool false) (JNum 0)))
     = 404.
Proof.
  assert (H1 : Map_get (deviceStatus server0) (JStr "hospital-screen-20") = None)
    by (vm_compute; reflexivity).
  split; [exact H1|].
  destruct (report_status_outside_fleet server0 _ (JBool false) (JNum 0) H1)
    as (Hs & H404 & _).
  split; [exact Hs|]. exact (proj2 (H404 eq_refl)).
Defined.

(** C5 fails where the presence test comes first: the empty string is not
    an identifier of the fleet and a report for it is answered 400, and so
    is a report for [hospital-screen-20] that lacks [isBusy]. *)
Lemma report_status_outside_fleet_400 :
  (Map_get (deviceStatus server0) (JStr "") = None
   /\ sent_code (fst (report_status server0 (JStr "") (JBool false) (JNum 0))) = 400)
  /\ (Map_get (deviceStatus server0) (JStr "hospital-screen-20") = None
      /\ sent_code
           (fst (report_status server0 (JStr "hospital-screen-20") JUndefined (JNum 0)))
         = 400).
Proof. split; split; vm_compute; reflexivity. Qed.

(** C6 fails on a report whose fields are strings: it is accepted and the
    record of [hospital-screen-5] is overwritten with them. *)
Lemma report_status_accepts_strings :
  let out := report_status server0 screen5 (JStr "yes") (JStr "high") in
  is_boolean (JStr "yes") = false
  /\ is_number (JStr "high") = false
  /\ statusCode (fst out) = 200
  /\ sent_code (fst out) = 200
  /\ deviceStatus (snd out) !! "hospital-screen-5" =
       Some {| isBusy := JStr "yes"; memory := JStr "high" |}.
Proof. repeat split; vm_compute; reflexivity. Qed.

(** C7 fails at exactly 02:00:00.000: the target is [now] itself, not
    after it. *)
Lemma resetTime_at_two_oclock :
  TimeWithinDay (LocalTime CST two_oclock) = MakeTime 2 0 0 0
  /\ resetTime CST two_oclock = two_oclock
  /\ delay CST two_oclock = 0.
Proof. repeat split; vm_compute; reflexivity. Qed.

(** * Further properties of the server *)

(** ** The fleet *)

Lemma screen_id_inj (i j : nat) : screen_id i = screen_id j -> i = j.
Proof.
  unfold screen_id. intros H.
  apply (inj (String.app "hospital-screen-")) in H. by apply (inj pretty) in H.
Qed.

Lemma provision_S (n : nat) :
  provision (S n) =
    <[screen_id n := {| isBusy := JBool false; memory := JNum 0 |}]> (provision n).
Proof. unfold provision. by rewrite seq_S, foldl_app. Qed.

Lemma provision_lookup (n : nat) (k : string) (d : device) :
  provision n !! k = Some d
  <-> (exists i : nat, (i < n)%nat /\ k = screen_id i)
      /\ d = {| isBusy := JBool false; memory := JNum 0 |}.
Proof.
  induction n as [|n IH].
  - unfold provision. simpl. rewrite lookup_empty. split; [done|].
    intros [(i & Hi & _) _]. lia.
  - rewrite provision_S, lookup_insert. case_decide as Hk.
    + subst k. split.
      * intros [= <-]. split; [|done]. exists n. split; [lia|done].
      * by intros [_ ->].
    + rewrite IH. split.
      * intros [(i & Hi & ->) ->]. split; [|done]. exists i. split; [lia|done].
      * intros [(i & Hi & ->) ->]. split; [|done]. exists i. split; [|done].
        destruct (decide (i = n)) as [->|]; [done|lia].
Qed.

Lemma provision_size (n : nat) : size (provision n) = n.
Proof.
  induction n as [|n IH]; [done|].
  rewrite provision_S, map_size_insert_None; [by rewrite IH|].
  destruct (provision n !! screen_id n) as [d|] eqn:E; [|done].
  apply provision_lookup in E as [(i & Hi & E) _].
  apply screen_id_inj in E. lia.
Qed.

(** X1. The registry the server starts with holds exactly the twenty
    identifiers [hospital-screen-0] to [hospital-screen-19], all distinct,
    each recorded idle with no memory in use; no other key is in it. *)
Theorem deviceStatus0_fleet (k : string) :
  size deviceStatus0 = 20%nat
  /\ (is_Some (deviceStatus0 !! k) <-> exists i : nat, (i < 20)%nat /\ k = screen_id i)
  /\ (forall d : device,
        deviceStatus0 !! k = Some d ->
        d = {| isBusy := JBool false; memory := JNum 0 |})
  /\ (forall i j : nat, screen_id i = screen_id j -> i = j).
Proof.
  change deviceStatus0 with (provision 20). split; [apply provision_size|].
  split; [|split].
  - split.
    + intros [d Hd]. by apply provision_lookup in Hd as [? _].
    + intros H. eexists. apply provision_lookup. by split.
  - intros d Hd. by apply provision_lookup in Hd as [_ ?].
  - apply screen_id_inj.
Qed.

(** ** Runs *)

Section ServeProperties.

Variable StringToNumber : string -> option Q.

Lemma serve_cons (s : server) (rq : request) (rqs : list request) :
  serve StringToNumber s (rq :: rqs) =
    (fst (handle StringToNumber s rq)
       :: fst (serve StringToNumber (snd (handle StringToNumber s rq)) rqs),
     snd (serve StringToNumber (snd (handle StringToNumber s rq)) rqs)).
Proof. reflexivity. Qed.

Lemma serve_app (s : server) (rqs1 rqs2 : list request) :
  serve StringToNumber s (rqs1 ++ rqs2) =
    (fst (serve StringToNumber s rqs1)
       ++ fst (serve StringToNumber (snd (serve StringToNumber s rqs1)) rqs2),
     snd (serve StringToNumber (snd (serve StringToNumber s rqs1)) rqs2)).
Proof.
  revert s. induction rqs1 as [|rq rqs1 IH]; intros s.
  - simpl. by destruct (serve StringToNumber s rqs2).
  - rewrite <- app_comm_cons, !serve_cons, IH. reflexivity.
Qed.

(** One request: the keys of the registry, and the queue against the task
    sent. *)
Lemma handle_keys (s : server) (rq : request) :
  dom (deviceStatus (snd (handle StringToNumber s rq))) = dom (deviceStatus s).
Proof.
  destruct rq as [deviceId isBusy memory | deviceId]; simpl.
  - apply report_status_keeps.
  - by destruct (get_task_outcome StringToNumber s deviceId).
Qed.

Lemma handle_queue (s : server) (rq : request) :
  guideTaskQueue s =
    match sent_task (fst (handle StringToNumber s rq)) with
    | Some t => t :: guideTaskQueue (snd (handle StringToNumber s rq))
    | None => guideTaskQueue (snd (handle StringToNumber s rq))
    end.
Proof.
  destruct rq as [deviceId isBusy memory | deviceId]; simpl.
  - unfold report_status.
    destruct (incomplete deviceId isBusy memory); [done|].
    by destruct (Map_has (deviceStatus s) deviceId).
  - by destruct (get_task_outcome StringToNumber s deviceId).
Qed.

(** X2. Whatever requests are served, in whatever order, the registry keeps
    exactly the keys it had: no request creates a record and none deletes
    one. *)
Theorem serve_keeps_keys (s : server) (rqs : list request) :
  dom (deviceStatus (snd (serve StringToNumber s rqs))) = dom (deviceStatus s).
Proof.
  revert s. induction rqs as [|rq rqs IH]; intros s; [done|].
  rewrite serve_cons. simpl. rewrite IH. apply handle_keys.
Qed.

(** X3. Over any run, the tasks sent, in the order of the responses,
    followed by the queue that is left, are the queue the run started
    with: tasks leave from the head, in order, each at most once, and none
    is lost or made up. *)
Theorem serve_fifo (s : server) (rqs : list request) :
  tasks_sent (fst (serve StringToNumber s rqs))
    ++ guideTaskQueue (snd (serve StringToNumber s rqs))
  = guideTaskQueue s.
Proof.
  revert s. induction rqs as [|rq rqs IH]; intros s; [done|].
  rewrite serve_cons. simpl. rewrite (handle_queue s rq). unfold tasks_sent. simpl.
  destruct (sent_task (fst (handle StringToNumber s rq))) as [t|]; simpl;
    f_equal; apply IH || (rewrite <- IH; reflexivity).
Qed.

End ServeProperties.

(** ** Reports *)

Lemma Map_has_keys (m1 m2 : gmap string device) (v : jsval) :
  dom m1 = dom m2 -> Map_has m1 v = Map_has m2 v.
Proof.
  intros H. unfold Map_has. destruct v; simpl; try done.
  destruct (m1 !! s) as [d1|] eqn:E1, (m2 !! s) as [d2|] eqn:E2; try done.
  - apply elem_of_dom_2 in E1. rewrite H in E1.
    apply elem_of_dom in E1 as [? ?]. congruence.
  - apply elem_of_dom_2 in E2. rewrite <- H in E2.
    apply elem_of_dom in E2 as [? ?]. congruence.
Qed.

(** The state a report leaves, in one expression. *)
Lemma report_status_state (s : server) (deviceId isBusy memory : jsval) :
  snd (report_status s deviceId isBusy memory) =
    if negb (incomplete deviceId isBusy memory) && Map_has (deviceStatus s) deviceId
    then {| deviceStatus :=
              Map_set (deviceStatus s) deviceId {| isBusy := isBusy; memory := memory |};
            guideTaskQueue := guideTaskQueue s |}
    else s.
Proof.
  unfold report_status. destruct (incomplete deviceId isBusy memory); [done|].
  by destruct (Map_has (deviceStatus s) deviceId).
Qed.

Lemma report_status_answer (s1 s2 : server) (deviceId isBusy memory : jsval) :
  dom (deviceStatus s1) = dom (deviceStatus s2) ->
  fst (report_status s1 deviceId isBusy memory) =
    fst (report_status s2 deviceId isBusy memory).
Proof.
  intros H. unfold report_status.
  destruct (incomplete deviceId isBusy memory); [done|].
  rewrite (Map_has_keys _ _ deviceId H).
  by destruct (Map_has (deviceStatus s2) deviceId).
Qed.

Lemma report_status_other_key (s : server) (deviceId isBusy memory : jsval)
    (k : string) :
  deviceId ≠ JStr k ->
  deviceStatus (snd (report_status s deviceId isBusy memory)) !! k =
    deviceStatus s !! k.
Proof.
  intros Hk. rewrite report_status_state.
  destruct (negb (incomplete deviceId isBusy memory)
            && Map_has (deviceStatus s) deviceId) eqn:E; [|done].
  apply andb_true_iff in E as [_ E].
  apply Map_has_true in E as (k0 & d & -> & E). simpl.
  apply lookup_insert_ne. congruence.
Qed.

(** X4. A report touches at most the record it names: the record of every
    other key is as before, whatever the report.  When it is answered 200
    the named record is the pair reported, and with any other answer the
    whole state is unchanged. *)
Theorem report_status_one_record (s : server) (deviceId isBusy memory : jsval) :
  let out := report_status s deviceId isBusy memory in
  (forall k : string,
     deviceId ≠ JStr k -> deviceStatus (snd out) !! k = deviceStatus s !! k)
  /\ (sent_code (fst out) = 200 ->
        Map_get (deviceStatus (snd out)) deviceId =
          Some {| isBusy := isBusy; memory := memory |})
  /\ (sent_code (fst out) ≠ 200 -> snd out = s).
Proof.
  intros out. subst out. unfold report_status.
  destruct (incomplete deviceId isBusy memory); [done|].
  destruct (Map_has (deviceStatus s) deviceId) eqn:H; [|done].
  apply Map_has_true in H as (k0 & d & -> & H). simpl.
  split; [|split]; [|by rewrite lookup_insert_eq|done].
  intros k Hk. apply lookup_insert_ne. congruence.
Qed.

(** X5. Reporting is idempotent: the same report sent twice in a row
    leaves the state the first one left and gets the same answer. *)
Theorem report_status_idempotent (s : server) (deviceId isBusy memory : jsval) :
  let out1 := report_status s deviceId isBusy memory in
  let out2 := report_status (snd out1) deviceId isBusy memory in
  snd out2 = snd out1 /\ fst out2 = fst out1.
Proof.
  cbv zeta. split.
  - rewrite (report_status_state (snd _)).
    rewrite (Map_has_keys _ (deviceStatus s) deviceId)
      by apply report_status_keeps.
    rewrite report_status_state.
    destruct (negb (incomplete deviceId isBusy memory)
              && Map_has (deviceStatus s) deviceId) eqn:E; rewrite ?E; [|done].
    apply andb_true_iff in E as [_ E].
    apply Map_has_true in E as (k & d & -> & E). simpl.
    by rewrite insert_insert_eq.
  - apply report_status_answer, report_status_keeps.
Qed.

(** X6. The last report wins: a report that passes the presence test
    leaves the same state whether or not an earlier report for the same
    [deviceId] came before it. *)
Theorem report_status_last_wins (s : server) (deviceId b1 m1 b2 m2 : jsval) :
  incomplete deviceId b2 m2 = false ->
  snd (report_status (snd (report_status s deviceId b1 m1)) deviceId b2 m2)
  = snd (report_status s deviceId b2 m2).
Proof.
  intros Hc. rewrite (report_status_state (snd _)).
  rewrite (Map_has_keys _ (deviceStatus s) deviceId) by apply report_status_keeps.
  rewrite !report_status_state, Hc. simpl.
  destruct (Map_has (deviceStatus s) deviceId) eqn:E; rewrite ?andb_true_r.
  - apply Map_has_true in E as (k & d & -> & E).
    destruct (negb (incomplete (JStr k) b1 m1)); simpl; [|done].
    by rewrite insert_insert_eq.
  - by rewrite andb_false_r.
Qed.

(** X7. Reports that name different identifiers commute: served in either
    order they leave the same state, and each gets the answer it would get
    alone. *)
Theorem report_status_commute (s : server) (id1 b1 m1 id2 b2 m2 : jsval) :
  id1 ≠ id2 ->
  snd (report_status (snd (report_status s id1 b1 m1)) id2 b2 m2)
  = snd (report_status (snd (report_status s id2 b2 m2)) id1 b1 m1)
  /\ fst (report_status (snd (report_status s id1 b1 m1)) id2 b2 m2)
     = fst (report_status s id2 b2 m2)
  /\ fst (report_status (snd (report_status s id2 b2 m2)) id1 b1 m1)
     = fst (report_status s id1 b1 m1).
Proof.
  intros Hne. split; [|split; apply report_status_answer, report_status_keeps].
  rewrite (report_status_state (snd (report_status s id1 b1 m1))).
  rewrite (report_status_state (snd (report_status s id2 b2 m2))).
  rewrite (Map_has_keys _ (deviceStatus s) id2) by apply report_status_keeps.
  rewrite (Map_has_keys _ (deviceStatus s) id1) by apply report_status_keeps.
  rewrite !report_status_state.
  destruct (negb (incomplete id1 b1 m1) && Map_has (deviceStatus s) id1) eqn:E1;
    destruct (negb (incomplete id2 b2 m2) && Map_has (deviceStatus s) id2) eqn:E2;
    try done.
  apply andb_true_iff in E1 as [_ E1]. apply andb_true_iff in E2 as [_ E2].
  apply Map_has_true in E1 as (k1 & d1 & -> & E1).
  apply Map_has_true in E2 as (k2 & d2 & -> & E2). simpl.
  f_equal. apply insert_insert_ne. congruence.
Qed.

(** X8. For POST /report-status the HTTP status always equals the code in
    the body, which is 400, 404 or 200, and the body never carries a
    task. *)
Theorem report_status_http_status (s : server) (deviceId isBusy memory : jsval) :
  let r := fst (report_status s deviceId isBusy memory) in
  statusCode r = sent_code r
  /\ (sent_code r = 400 \/ sent_code r = 404 \/ sent_code r = 200)
  /\ sent_task r = None
  /\ (sent_code r = 400 <-> incomplete deviceId isBusy memory = true)
  /\ (sent_code r = 200 <->
        incomplete deviceId isBusy memory = false
        /\ is_Some (Map_get (deviceStatus s) deviceId)).
Proof.
  intros r. subst r. unfold report_status, Map_has.
  destruct (incomplete deviceId isBusy memory); simpl.
  { repeat split; auto; try done. by intros [? _]. }
  destruct (Map_get (deviceStatus s) deviceId) as [d|]; simpl;
    repeat split; auto; try done.
  intros [_ [? ?]]. done.
Qed.

(** ** Reports and requests together *)

Section RunProperties.

Variable StringToNumber : string -> option Q.

(** The record a request leaves under a key: the one it found, or the pair
    of a complete report naming the key. *)
Lemma handle_record (s : server) (rq : request) (k : string) (d : device) :
  deviceStatus (snd (handle StringToNumber s rq)) !! k = Some d ->
  deviceStatus s !! k = Some d
  \/ exists b m : jsval,
       rq = POST_report_status (JStr k) b m
       /\ d = {| isBusy := b; memory := m |}
       /\ is_undefined b = false /\ is_undefined m = false.
Proof.
  destruct rq as [deviceId b m | deviceId]; simpl.
  - unfold report_status. destruct (incomplete deviceId b m) eqn:Hi; [by left|].
    destruct (Map_has (deviceStatus s) deviceId) eqn:Hh; [|by left].
    apply Map_has_true in Hh as (k0 & d0 & -> & Hh). simpl.
    rewrite lookup_insert. case_decide as Hk; [|by left].
    subst k0. intros [= <-]. right. exists b, m.
    apply incomplete_false in Hi as (_ & ? & ?). done.
  - intros H. left. by destruct (get_task_outcome StringToNumber s deviceId).
Qed.

(** X9. After any run, the record under a key is either the one the run
    started with or the pair carried by a report of the run that names the
    key with both fields present: records change through reports only, and
    a record written by a report never holds [undefined]. *)
Theorem serve_records_from_reports (s : server) (rqs : list request)
    (k : string) (d : device) :
  deviceStatus (snd (serve StringToNumber s rqs)) !! k = Some d ->
  deviceStatus s !! k = Some d
  \/ exists b m : jsval,
       POST_report_status (JStr k) b m ∈ rqs
       /\ d = {| isBusy := b; memory := m |}
       /\ is_undefined b = false /\ is_undefined m = false.
Proof.
  revert s. induction rqs as [|rq rqs IH]; intros s; [by left|].
  rewrite serve_cons. simpl. intros H.
  destruct (IH _ H) as [H1 | (b & m & Hin & Hd)].
  - destruct (handle_record s rq k d H1) as [?|(b & m & -> & Hd)]; [by left|].
    right. exists b, m. split; [left|done].
  - right. exists b, m. split; [by right|done].
Qed.

(** X10. A [deviceId] that is not a string is never taken for a device:
    both handlers leave the state as it was and answer 400 when the value
    is falsy ([undefined], [null], [false], [0]) and 404 when it is truthy
    (a non-zero number, [true], an array or object); for the report, 400
    also when a field is absent. *)
Theorem non_string_deviceId (s : server) (deviceId isBusy memory : jsval) :
  (forall k : string, deviceId ≠ JStr k) ->
  let out1 := report_status s deviceId isBusy memory in
  let out2 := get_task StringToNumber s deviceId in
  snd out1 = s
  /\ sent_code (fst out1) = (if incomplete deviceId isBusy memory then 400 else 404)
  /\ snd out2 = s
  /\ sent_code (fst out2) = (if truthy deviceId then 404 else 400)
  /\ sent_task (fst out2) = None.
Proof.
  intros Hk out1 out2. subst out1 out2.
  assert (Hg : Map_get (deviceStatus s) deviceId = None).
  { destruct deviceId; try done. by destruct (Hk s0). }
  unfold report_status, get_task, Map_has. rewrite Hg.
  destruct (incomplete deviceId isBusy memory), (truthy deviceId); done.
Qed.

(** X11. Devices are served in isolation: a report that names one
    identifier does not change the answer a request of another identifier
    gets. *)
Theorem report_status_other_device (s : server) (deviceId isBusy memory : jsval)
    (k : string) :
  deviceId ≠ JStr k ->
  fst (get_task StringToNumber
         (snd (report_status s deviceId isBusy memory)) (JStr k))
  = fst (get_task StringToNumber s (JStr k)).
Proof.
  intros Hk.
  pose proof (report_status_other_key s deviceId isBusy memory k Hk) as Hr.
  destruct (report_status_keeps s deviceId isBusy memory) as [Hq _].
  unfold get_task. simpl. rewrite Hr, Hq.
  destruct (negb (String.eqb k "")); [|done].
  destruct (deviceStatus s !! k) as [d|]; [|done].
  destruct (refused StringToNumber d); [done|].
  by destruct (guideTaskQueue s).
Qed.

(** X12. The server does not mark a device busy when it hands it a task:
    a device whose record is accepted stays accepted until it reports, and
    [n] requests in a row from it are answered with the first [n] tasks of
    the queue in order (all of them when the queue is shorter), leaving
    the rest, with the registry unchanged. *)
Theorem serve_drain (s : server) (k : string) (d : device) (n : nat) :
  k ≠ "" ->
  deviceStatus s !! k = Some d ->
  refused StringToNumber d = false ->
  let out := serve StringToNumber s (replicate n (GET_get_task (JStr k))) in
  tasks_sent (fst out) = take n (guideTaskQueue s)
  /\ guideTaskQueue (snd out) = drop n (guideTaskQueue s)
  /\ deviceStatus (snd out) = deviceStatus s.
Proof.
  intros Hk Hd Hr. cbv zeta. destruct s as [m q]. simpl in Hd. simpl.
  revert q. induction n as [|n IH]; intros q; [done|].
  simpl replicate. rewrite serve_cons. simpl handle.
  rewrite (get_task_pop StringToNumber m q k d Hk Hd Hr).
  destruct q as [|t q]; simpl.
  - destruct (IH []) as (H1 & H2 & H3).
    rewrite take_nil in H1. rewrite drop_nil in H2. done.
  - destruct (IH q) as (H1 & H2 & H3).
    unfold tasks_sent in *. simpl. by rewrite H1.
Qed.

End RunProperties.

(** * Further properties of the screens *)

(** ** Memory samples and status reports *)

Lemma getMemoryUsage_bounds (scaled : Q) :
  (0 <= scaled)%Q -> (scaled < 50)%Q ->
  280 <= getMemoryUsage true scaled <= 329.
Proof.
  intros H0 H50. unfold getMemoryUsage.
  assert (0 <= Qfloor scaled).
  { change 0 with (Qfloor 0). by apply Qfloor_resp_le. }
  assert (Qfloor scaled < 50).
  { rewrite Zlt_Qlt. eapply Qle_lt_trans; [apply Qfloor_le|]. exact H50. }
  lia.
Qed.

Lemma memory_sample_below_ceiling (StringToNumber : string -> option Q) (n : Z) :
  n <= 350 -> gt_num StringToNumber (JNum (inject_Z n)) 350 = false.
Proof.
  intros H. unfold gt_num. simpl. apply Qgtb_false.
  change 350%Q with (inject_Z 350). by rewrite <- Zle_Qle.
Qed.

(** X13. In a browser the sample [getMemoryUsage] returns is an integer
    from 280 to 329 (never 330), so it is never above the ceiling of 350
    the server tests; without a [window] it is 0. *)
Theorem getMemoryUsage_range (StringToNumber : string -> option Q) (scaled : Q) :
  (0 <= scaled)%Q -> (scaled < 50)%Q ->
  280 <= getMemoryUsage true scaled <= 329
  /\ getMemoryUsage false scaled = 0
  /\ gt_num StringToNumber (JNum (inject_Z (getMemoryUsage true scaled))) 350 = false.
Proof.
  intros H0 H50. pose proof (getMemoryUsage_bounds scaled H0 H50).
  split; [done|]. split; [done|]. apply memory_sample_below_ceiling. lia.
Qed.

(** X14. A status report of a registered screen, served.  While
    [window.voicePlaying] is [undefined] the body has no [isBusy] and the
    report is answered 400, the record staying as it was.  With a boolean
    flag the report is accepted, and the screen's next request is refused
    exactly when the flag was [true]: the sampled memory never closes the
    gate. *)
Theorem status_report_gate (StringToNumber : string -> option Q) (s : server)
    (DEVICE_ID : string) (d : device) (scaled : Q) :
  DEVICE_ID ≠ "" ->
  deviceStatus s !! DEVICE_ID = Some d ->
  (0 <= scaled)%Q -> (scaled < 50)%Q ->
  (sent_code (fst (status_report s DEVICE_ID JUndefined scaled)) = 400
   /\ snd (status_report s DEVICE_ID JUndefined scaled) = s)
  /\ (forall playing : bool,
        let out := status_report s DEVICE_ID (JBool playing) scaled in
        sent_code (fst out) = 200
        /\ deviceStatus (snd out) !! DEVICE_ID =
             Some {| isBusy := JBool playing;
                     memory := JNum (inject_Z (getMemoryUsage true scaled)) |}
        /\ (sent_code (fst (get_task StringToNumber (snd out) (JStr DEVICE_ID))) = 403
            <-> playing = true)).
Proof.
  intros Hk Hd H0 H50. split.
  { unfold status_report. rewrite report_status_incomplete; [done|].
    unfold incomplete. simpl. by rewrite orb_true_r. }
  intros playing out. subst out. unfold status_report.
  pose proof (getMemoryUsage_bounds scaled H0 H50) as Hb.
  set (mem := JNum (inject_Z (getMemoryUsage true scaled))).
  rewrite (report_status_accepted s DEVICE_ID d);
    [|by apply incomplete_false; rewrite truthy_JStr|done].
  set (d' := {| isBusy := JBool playing; memory := mem |}).
  set (s' := {| deviceStatus := <[DEVICE_ID := d']> (deviceStatus s);
                guideTaskQueue := guideTaskQueue s |}).
  assert (Hd' : Map_get (deviceStatus s') (JStr DEVICE_ID) = Some d')
    by apply lookup_insert_eq.
  split; [done|]. split; [exact Hd'|]. cbn [snd].
  assert (Ht : truthy (JStr DEVICE_ID) = true) by by apply truthy_JStr.
  assert (Hr : refused StringToNumber d' = playing).
  { unfold refused, d', mem. cbn [isBusy memory truthy].
    rewrite memory_sample_below_ceiling by lia. by destruct playing. }
  destruct playing.
  - by rewrite (get_task_refused StringToNumber s' _ d').
  - destruct (guideTaskQueue s') as [|t rest] eqn:Hq.
    + by rewrite (get_task_empty StringToNumber s' _ d').
    + by rewrite (get_task_assigned StringToNumber s' _ d' t rest).
Qed.

(** ** The reset target over the days *)

Ltac unfold_time :=
  unfold UTC, LocalTime, MakeDate, MakeTime, Day, TimeWithinDay,
    msPerDay, msPerHour, msPerMinute, msPerSecond in *.

(** X15. The schedule is perpetual.  The target is a fixed point of the
    computation, and when the page schedules again at any instant after the
    target, up to a whole day after it, the new target is the old one plus
    exactly one day. *)
Theorem resetTime_reschedule (LocalTZA now later : Z) :
  0 < later <= msPerDay ->
  resetTime LocalTZA (resetTime LocalTZA now) = resetTime LocalTZA now
  /\ resetTime LocalTZA (resetTime LocalTZA now + later) =
       resetTime LocalTZA now + msPerDay.
Proof.
  intros Hl. rewrite !resetTime_cases. cbv zeta. unfold_time.
  repeat match goal with
         | |- context [Z.leb ?a ?b] => destruct (Z.leb_spec a b)
         end;
    split; Z.div_mod_to_equations; lia.
Qed.

(** X16. The target follows the clock: it moves by whole days with [now],
    it never goes back when [now] advances, and it depends on the zone
    through the local time only. *)
Theorem resetTime_follows_clock (LocalTZA now : Z) :
  (forall days : Z,
     resetTime LocalTZA (now + days * msPerDay) =
       resetTime LocalTZA now + days * msPerDay)
  /\ (forall now' : Z,
        now <= now' -> resetTime LocalTZA now <= resetTime LocalTZA now')
  /\ resetTime LocalTZA now = resetTime 0 (now + LocalTZA) - LocalTZA.
Proof.
  split; [|split].
  - intros days. rewrite !resetTime_cases. cbv zeta. unfold_time.
    replace (now + days * 86400000 + LocalTZA)
      with (now + LocalTZA + days * 86400000) by lia.
    rewrite Z_mod_plus_full, Z_div_plus_full by lia.
    destruct (Z.leb_spec ((now + LocalTZA) mod 86400000)
                (2 * 3600000 + 0 * 60000 + 0 * 1000 + 0)); ring.
  - intros now' Hle. rewrite !resetTime_cases. cbv zeta. unfold_time.
    repeat match goal with
           | |- context [Z.leb ?a ?b] => destruct (Z.leb_spec a b)
           end;
      Z.div_mod_to_equations; lia.
  - rewrite !resetTime_cases. cbv zeta. unfold_time.
    rewrite (Z.add_0_r (now + LocalTZA)).
    destruct (Z.leb_spec ((now + LocalTZA) mod 86400000)
                (2 * 3600000 + 0 * 60000 + 0 * 1000 + 0)); ring.
Qed.

(** ** Error codes *)

Lemma strict_eq_num_is_number (v : jsval) (k : Q) :
  strict_eq_num v k = true -> is_number v = true.
Proof. by destruct v. Qed.

Lemma strict_eq_num_apart (v : jsval) (k1 k2 : Q) :
  ~ (k1 == k2)%Q ->
  strict_eq_num v k1 = true -> strict_eq_num v k2 = false.
Proof.
  intros Hk. destruct v; simpl; try done.
  intros H1. apply not_true_iff_false. intros H2.
  apply Qeq_bool_iff in H1, H2. apply Hk. by rewrite <- H1, <- H2.
Qed.

(** X17. The cases are matched with [===]: an error code that is not a
    number, such as the string ["10001"], takes the default branch and is
    logged only, with no dialog, no timer and the SDK handle untouched. *)
Theorem handleSdkError_not_a_number (errorCode : jsval) (w : window) :
  is_number errorCode = false ->
  handleSdkError errorCode w =
    {| digitalHumanSdk := digitalHumanSdk w;
       alerts := alerts w;
       console := console w ++ [log_unhandled errorCode];
       timers := timers w |}.
Proof.
  intros H. unfold handleSdkError.
  by destruct errorCode.
Qed.

Lemma handleSdkErrors_snoc (errorCodes : list jsval) (errorCode : jsval)
    (w : window) :
  handleSdkErrors (errorCodes ++ [errorCode]) w =
    handleSdkError errorCode (handleSdkErrors errorCodes w).
Proof. unfold handleSdkErrors. by rewrite foldl_app. Qed.

(** X18. Over any sequence of error codes the handler only adds: the
    dialogs are the earlier ones followed by one per 10001, the timers the
    earlier ones followed by one 5000 ms [initDigitalHumanSdk] timer per
    10002 (socket errors in a row stack their retries, none is merged or
    cancelled), and a page without an SDK handle stays without one. *)
Theorem handleSdkErrors_accumulate (errorCodes : list jsval) (w : window) :
  let w' := handleSdkErrors errorCodes w in
  alerts w' =
    alerts w ++
      replicate (length (List.filter (fun c => strict_eq_num c 10001) errorCodes))
        "数字人容器初始化失败，请检查页面结构"
  /\ timers w' =
       timers w ++
         replicate (length (List.filter (fun c => strict_eq_num c 10002) errorCodes))
           {| timer_callback := initDigitalHumanSdk; timer_delay := 5000 |}
  /\ (digitalHumanSdk w' = None <-> digitalHumanSdk w = None).
Proof.
  cbv zeta. induction errorCodes as [|c cs IH] using rev_ind.
  { simpl. by rewrite !app_nil_r. }
  destruct IH as (IHa & IHt & IHs).
  rewrite handleSdkErrors_snoc, !List.filter_app, !length_app.
  rewrite !replicate_add, !app_assoc, <- IHa, <- IHt, <- IHs.
  set (w1 := handleSdkErrors cs w). simpl List.filter.
  unfold handleSdkError.
  destruct (strict_eq_num c 10001) eqn:E1.
  { rewrite (strict_eq_num_apart c 10001 10002) by done. simpl.
    by rewrite app_nil_r. }
  destruct (strict_eq_num c 10002) eqn:E2.
  { simpl. by rewrite app_nil_r. }
  destruct (strict_eq_num c 30001) eqn:E3; simpl; rewrite !app_nil_r;
    repeat split; try done.
  all: by destruct (digitalHumanSdk w1).
Qed.

(** ** The daily reset action *)





(** * Concrete runs of the further properties *)

(** X6 on the initial server: a busy report of [hospital-screen-5]
    followed by an idle one leaves the idle record. *)
Lemma report_status_last_wins_witness :
  incomplete screen5 (JBool false) (JNum 100) = false
  /\ deviceStatus
       (snd (report_status (snd (report_status server0 screen5 (JBool true) (JNum 300)))
               screen5 (JBool false) (JNum 100)))
       !! "hospital-screen-5"
     = Some {| isBusy := JBool false; memory := JNum 100 |}.
Proof.
  assert (H : incomplete screen5 (JBool false) (JNum 100) = false) by reflexivity.
  split; [exact H|].
  rewrite (report_status_last_wins server0 screen5 (JBool true) (JNum 300) _ _ H).
  vm_compute. reflexivity.
Defined.

(** X7 on the initial server: reports of two screens in either order. *)
Lemma report_status_commute_witness :
  screen5 ≠ JStr "hospital-screen-6"
  /\ snd (report_status (snd (report_status server0 screen5 (JBool true) (JNum 300)))
            (JStr "hospital-screen-6") (JBool false) (JNum 290))
     = snd (report_status
              (snd (report_status server0 (JStr "hospital-screen-6")
                      (JBool false) (JNum 290)))
              screen5 (JBool true) (JNum 300)).
Proof.
  assert (H : screen5 ≠ JStr "hospital-screen-6") by discriminate.
  split; [exact H|].
  exact (proj1 (report_status_commute server0 screen5 (JBool true) (JNum 300)
                  (JStr "hospital-screen-6") (JBool false) (JNum 290) H)).
Defined.

(** X9 on a run of one report. *)
Lemma serve_records_from_reports_witness :
  deviceStatus
    (snd (serve digitsToNumber server0
            [POST_report_status screen5 (JBool true) (JNum 120)]))
    !! "hospital-screen-5"
  = Some {| isBusy := JBool true; memory := JNum 120 |}
  /\ (deviceStatus server0 !! "hospital-screen-5"
      = Some {| isBusy := JBool true; memory := JNum 120 |}
      \/ exists b m : jsval,
           POST_report_status (JStr "hospital-screen-5") b m
             ∈ [POST_report_status screen5 (JBool true) (JNum 120)]
           /\ {| isBusy := JBool true; memory := JNum 120 |}
              = {| isBusy := b; memory := m |}
           /\ is_undefined b = false /\ is_undefined m = false).
Proof.
  assert (H : deviceStatus
                (snd (serve digitsToNumber server0
                        [POST_report_status screen5 (JBool true) (JNum 120)]))
                !! "hospital-screen-5"
              = Some {| isBusy := JBool true; memory := JNum 120 |})
    by (vm_compute; reflexivity).
  split; [exact H|].
  exact (serve_records_from_reports digitsToNumber server0 _ _ _ H).
Defined.

(** X10 for the number 5 sent as [deviceId]: 404 from both handlers. *)
Lemma non_string_deviceId_witness :
  (forall k : string, JNum 5 ≠ JStr k)
  /\ sent_code (fst (report_status server0 (JNum 5) (JBool false) (JNum 0))) = 404
  /\ sent_code (fst (get_task digitsToNumber server0 (JNum 5))) = 404.
Proof.
  assert (H : forall k : string, JNum 5 ≠ JStr k) by discriminate.
  split; [exact H|].
  destruct (non_string_deviceId digitsToNumber server0 (JNum 5)
              (JBool false) (JNum 0) H) as (_ & H1 & _ & H2 & _).
  split; [exact H1 | exact H2].
Defined.

(** X11: a report of [hospital-screen-5] and a request of
    [hospital-screen-6]. *)
Lemma report_status_other_device_witness :
  screen5 ≠ JStr "hospital-screen-6"
  /\ fst (get_task digitsToNumber server_busy5 (JStr "hospital-screen-6"))
     = fst (get_task digitsToNumber server0 (JStr "hospital-screen-6")).
Proof.
  assert (H : screen5 ≠ JStr "hospital-screen-6") by discriminate.
  split; [exact H|].
  exact (report_status_other_device digitsToNumber server0 screen5
           (JBool true) (JNum 120) "hospital-screen-6" H).
Defined.

(** X12: two requests in a row of the idle [hospital-screen-5]. *)
Lemma serve_drain_witness :
  "hospital-screen-5" ≠ ""
  /\ deviceStatus server_idle5 !! "hospital-screen-5"
     = Some {| isBusy := JBool false; memory := JNum 100 |}
  /\ refused digitsToNumber {| isBusy := JBool false; memory := JNum 100 |} = false
  /\ tasks_sent
       (fst (serve digitsToNumber server_idle5 (replicate 2 (GET_get_task screen5))))
     = take 2 guideTaskQueue0.
Proof.
  assert (H1 : "hospital-screen-5" ≠ "") by discriminate.
  assert (H2 : deviceStatus server_idle5 !! "hospital-screen-5"
               = Some {| isBusy := JBool false; memory := JNum 100 |})
    by (vm_compute; reflexivity).
  assert (H3 : refused digitsToNumber
                 {| isBusy := JBool false; memory := JNum 100 |} = false)
    by reflexivity.
  split; [exact H1|]. split; [exact H2|]. split; [exact H3|].
  exact (proj1 (serve_drain digitsToNumber server_idle5 _ _ 2 H1 H2 H3)).
Defined.

(** X13 at [Math.random() * 50 = 49.5]. *)
Lemma getMemoryUsage_range_witness :
  (0 <= 99 # 2)%Q /\ (99 # 2 < 50)%Q
  /\ 280 <= getMemoryUsage true (99 # 2) <= 329.
Proof.
  assert (H1 : (0 <= 99 # 2)%Q) by discriminate.
  assert (H2 : (99 # 2 < 50)%Q) by reflexivity.
  split; [exact H1|]. split; [exact H2|].
  exact (proj1 (getMemoryUsage_range digitsToNumber (99 # 2) H1 H2)).
Defined.

(** X14 for [hospital-screen-5] on the initial server. *)
Lemma status_report_gate_witness :
  "hospital-screen-5" ≠ ""
  /\ deviceStatus server0 !! "hospital-screen-5"
     = Some {| isBusy := JBool false; memory := JNum 0 |}
  /\ (0 <= 25 # 2)%Q /\ (25 # 2 < 50)%Q
  /\ sent_code (fst (status_report server0 "hospital-screen-5" JUndefined (25 # 2)))
     = 400
  /\ sent_code
       (fst (status_report server0 "hospital-screen-5" (JBool true) (25 # 2)))
     = 200.
Proof.
  assert (H1 : "hospital-screen-5" ≠ "") by discriminate.
  assert (H2 : deviceStatus server0 !! "hospital-screen-5"
               = Some {| isBusy := JBool false; memory := JNum 0 |})
    by (vm_compute; reflexivity).
  assert (H3 : (0 <= 25 # 2)%Q) by discriminate.
  assert (H4 : (25 # 2 < 50)%Q) by reflexivity.
  split; [exact H1|]. split; [exact H2|]. split; [exact H3|]. split; [exact H4|].
  destruct (status_report_gate digitsToNumber server0 _ _ _ H1 H2 H3 H4)
    as ((Hu & _) & Hb).
  split; [exact Hu|]. exact (proj1 (Hb true)).
Defined.

(** X15 one millisecond after 02:00: the next target is a day later. *)
Lemma resetTime_reschedule_witness :
  0 < 1 <= msPerDay
  /\ resetTime CST (resetTime CST two_oclock + 1)
     = resetTime CST two_oclock + msPerDay.
Proof.
  assert (H : 0 < 1 <= msPerDay) by (unfold msPerDay; lia).
  split; [exact H|].
  exact (proj2 (resetTime_reschedule CST two_oclock 1 H)).
Defined.

(** X17 for the string ["10001"]. *)
Lemma handleSdkError_not_a_number_witness :
  is_number (JStr "10001") = false
  /\ alerts (handleSdkError (JStr "10001") page0) = alerts page0
  /\ timers (handleSdkError (JStr "10001") page0) = timers page0.
Proof.
  assert (H : is_number (JStr "10001") = false) by reflexivity.
  split; [exact H|].
  rewrite (handleSdkError_not_a_number (JStr "10001") page0 H).
  split; reflexivity.
Defined.
